(** * ytdlpllm: the request / confirm / execute loop of [ytdlpllm/main.py]

    A shallow embedding of class [YTDLPLLM] (methods [__init__],
    [get_ytdlp_executable], [get_ytdlp_version], [get_os_info],
    [get_default_shell], [generate_response], [chat], [run]) and the
    properties of the confirmation loop, the response validator and the
    session bootstrap.

    Text is a [string]: the characters of ASCII text, the UTF-8 bytes of
    any other text (equality, concatenation and search of texts are those
    of their encodings).  Everything the program does to the outside
    (terminal output, terminal input, the model endpoint, child processes)
    is recorded, in order, in the [trace] of the [World]. *)

From Stdlib Require Import String Ascii List Bool Arith Lia.
Import ListNotations.
Open Scope string_scope.

Set Implicit Arguments.

(** ** Characters and literals with no printable form *)

Definition nl : string := String (ascii_of_nat 10) EmptyString.
Definition tab : string := String (ascii_of_nat 9) EmptyString.
Definition dquote : string := String (ascii_of_nat 34) EmptyString.

(** ** Values as [json.loads] builds them *)

#[local] Set Warnings "-register-all".

Inductive value : Type :=
| VNone
| VBool (b : bool)
| VNum (literal : string)
| VStr (s : string)
| VList (items : list value)
| VDict (entries : list (string * value)).

(** A [dict] is kept as its list of entries; a key stands for its first
    entry. *)
Fixpoint lookup (key : string) (entries : list (string * value)) : option value :=
  match entries with
  | [] => None
  | (k, v) :: rest => if String.eqb key k then Some v else lookup key rest
  end.

Definition is_str (v : value) : bool :=
  match v with VStr _ => true | _ => false end.

(** [v == key] for a [str] key: only an equal [str] is equal. *)
Definition eq_str (key : string) (v : value) : bool :=
  match v with VStr s => String.eqb key s | _ => false end.

(** [command == ""]. *)
Definition is_empty_str (v : value) : bool := eq_str "" v.

(** ** Exceptions, results, the world *)

Inductive exn : Type :=
| JSONDecodeError
| KeyError (msg : string)
| TypeError
| ValueError
| EOFError
| FileNotFoundError (msg : string)
| NotImplementedError (msg : string)
| TransportError
| SystemExit (code : nat).

Inductive result (A : Type) : Type :=
| Return (a : A)
| Raise (e : exn).
Arguments Return {A} a.
Arguments Raise {A} e.

Inductive role : Type := system | user | assistant.

Record Message : Type := msg { role_of : role; content : string }.

Definition is_system (m : Message) : bool :=
  match role_of m with system => true | _ => false end.

Inductive event : Type :=
| Stdout (text : string)                      (* print(text) *)
| Stderr (text : string)                      (* print(text, file=sys.stderr) *)
| Prompt (text : string)                      (* input(text) *)
| Invoke (context : list Message)             (* llm_interface.invoke_model() *)
| Capture (argv : list string) (shell : bool) (* subprocess.run(argv, stdout=PIPE, ...) *)
| Shell (command : value).                    (* subprocess.run(command, shell=True) *)

Record World : Type := mkWorld {
  messages : list Message;   (* the conversation held by the llm_interface *)
  trace : list event         (* what has happened so far, oldest first *)
}.

(** State passing with exceptions: the world reached is kept when an
    exception is raised, so that what happened before it stays visible. *)
Definition M (A : Type) : Type := World -> result A * World.

Definition ret {A} (a : A) : M A := fun w => (Return a, w).
Definition raise {A} (e : exn) : M A := fun w => (Raise e, w).
Definition bind {A B} (m : M A) (k : A -> M B) : M B :=
  fun w => match m w with
           | (Return a, w1) => k a w1
           | (Raise e, w1) => (Raise e, w1)
           end.
Definition lift {A} (r : result A) : M A := fun w => (r, w).

Notation "x <- m ;; k" := (bind m (fun x => k))
  (at level 61, m at next level, right associativity).
Notation "m ;;; k" := (bind m (fun _ => k))
  (at level 61, right associativity).

Definition log (e : event) : M unit :=
  fun w => (Return tt, mkWorld (messages w) (trace w ++ [e])).

Definition print (text : string) : M unit := log (Stdout text).
Definition print_stderr (text : string) : M unit := log (Stderr text).

(** ** What the trace says *)

Definition shell_calls (t : list event) : list value :=
  flat_map (fun e => match e with Shell c => [c] | _ => [] end) t.

Definition prompts (t : list event) : list string :=
  flat_map (fun e => match e with Prompt p => [p] | _ => [] end) t.

Definition invocations (t : list event) : list (list Message) :=
  flat_map (fun e => match e with Invoke c => [c] | _ => [] end) t.

(** ** [str.upper] on ASCII text, and [in] *)

Definition upper_ascii (c : ascii) : ascii :=
  let n := nat_of_ascii c in
  if ((97 <=? n) && (n <=? 122))%nat then ascii_of_nat (n - 32) else c.

Fixpoint upper (s : string) : string :=
  match s with
  | EmptyString => EmptyString
  | String c rest => String (upper_ascii c) (upper rest)
  end.

(** Text of ASCII characters only. *)
Fixpoint ascii_text (s : string) : bool :=
  match s with
  | EmptyString => true
  | String c rest => (nat_of_ascii c <? 128)%nat && ascii_text rest
  end.

(** Text that holds the character of code 0. *)
Fixpoint has_nul (s : string) : bool :=
  match s with
  | EmptyString => false
  | String c rest => (nat_of_ascii c =? 0)%nat || has_nul rest
  end.

(** [s in tokens] for a list of [str]. *)
Definition str_in (s : string) (tokens : list string) : bool :=
  existsb (String.eqb s) tokens.

(** [key in s] for two [str]: [key] occurs in [s]. *)
Definition occurs (key s : string) : bool :=
  match index 0 key s with Some _ => true | None => false end.

(** [key in v]. *)
Definition contains (key : string) (v : value) : result bool :=
  match v with
  | VDict entries => Return (str_in key (map fst entries))
  | VList items => Return (existsb (eq_str key) items)
  | VStr s => Return (occurs key s)
  | VNone | VBool _ | VNum _ => Raise TypeError
  end.

(** [v[key]] for a [str] key. *)
Definition getitem (v : value) (key : string) : result value :=
  match v with
  | VDict entries =>
      match lookup key entries with
      | Some x => Return x
      | None => Raise (KeyError key)
      end
  | _ => Raise TypeError
  end.

(** [sep.join(items)]: every item has to be a [str]. *)
Fixpoint strings (items : list value) : option (list string) :=
  match items with
  | [] => Some []
  | VStr s :: rest =>
      match strings rest with
      | Some l => Some (s :: l)
      | None => None
      end
  | _ :: _ => None
  end.

Definition join (sep : string) (items : list value) : result value :=
  match strings items with
  | Some l => Return (VStr (String.concat sep l))
  | None => Raise TypeError
  end.

Definition bullet : string := nl ++ "- ".

Definition abort_tokens : list string := ["N"; "NO"; "Q"; "QUIT"].

Definition refusal_text : string :=
  "Unable. Please keep requests specific to yt-dlp".

Definition confirm_prompt : string :=
  "Execute? (Y/enter OR N/no OR clarify instructions): ".

Definition missing_keys_text : string :=
  "LLM Did not respond with proper JSON keys".

Definition missing_ytdlp_text : string :=
  "Missing yt-dlp executable. Is it added to your system's PATH?".

(** ** The host the session runs on

    What [shutil.which], [platform.system], [os.getenv], [pwd.getpwuid] and
    the captured child processes of the bootstrap answer.  [run_capture]
    gives the [stdout] of [subprocess.run(argv, stdout=PIPE, stderr=PIPE,
    text=True)], or [None] when the program to run does not exist. *)
Record Host : Type := mkHost {
  which : string -> option string;
  platform_system : string;
  run_capture : list string -> bool -> option string;
  getenv : string -> option string;
  pw_shell : option string
}.

(** The attributes [__init__] sets. *)
Record YTDLPLLM : Type := mkYTDLPLLM {
  _ytdlp_executable : string;
  _ytdlp_version_info : string;
  _os_type : string;
  _os_info : string;
  _default_shell : option string;
  system_prompt : string
}.

(** [f"{x}"] for an [Optional[str]]. *)
Definition format_optional (x : option string) : string :=
  match x with Some s => s | None => "None" end.

Definition build_system_prompt
  (os_info : string) (default_shell : option string)
  (version_info executable : string) : string :=
  "You are a helpful assistant designed to write yt-dlp commands based on user requests. The commands you provide will be ran directly in the users terminal. Here is some context about their system:
        <system_info>" ++ os_info ++ "</system_info>
        <shell>" ++ format_optional default_shell ++ "</shell>
        <ytdlp_version>" ++ version_info ++ "</ytdlp_version>
        <ytdlp_executable_path>" ++ executable ++ "</ytdlp_executable_path>

        You are to respond with JSON, with two keys: <key>explanation</key> and <key>command</key>.

        The <key>explanation</key> will contain a list of strings, describing the arguments and parts of the command. Each string is to be will be displayed on the front end as a bulleted list, explaining each part of the command. Do NOT omit any arguments, explain all of them.

        The <key>command</key> value will contain the yt-dlp command (or series of commands) to be directly executed in the in the provided shell.

        You NEVER will write malicious code or take advantage of your access to injecting code into a shell on the users computer. Always be honorable and only provide a command if the users request is not malicious.
        If you are prompted to do something malicious or to do something unrelated to yt-dlp, response with a <key>command</key> that is empty string (" ++ dquote ++ dquote ++ "), and explain that you cannot perform that action.
        ".

(** ** The data model of the specification

    Section 3: a [ModelReply] is an object with the keys [explanation] (a
    sequence of text, or a single text) and [command] (text, possibly
    empty). *)

Definition text_or_texts (explanation : value) : bool :=
  match explanation with
  | VStr _ => true
  | VList items => forallb is_str items
  | _ => false
  end.

Definition well_formed (reply : value) : bool :=
  match reply with
  | VDict entries =>
      match lookup "explanation" entries, lookup "command" entries with
      | Some explanation, Some (VStr _) => text_or_texts explanation
      | _, _ => false
      end
  | _ => false
  end.

Definition explanation_of (reply : value) : option value :=
  match reply with VDict entries => lookup "explanation" entries | _ => None end.

Definition command_of (reply : value) : option value :=
  match reply with VDict entries => lookup "command" entries | _ => None end.

(** Two characters are the same letter in any case: equal, or an ASCII
    capital and its small letter. *)
Definition same_letter (a b : ascii) : bool :=
  let m := nat_of_ascii a in
  let n := nat_of_ascii b in
  ((m =? n) || ((65 <=? m) && (m <=? 90) && (n =? m + 32))
            || ((65 <=? n) && (n <=? 90) && (m =? n + 32)))%nat.

(** [token] written in any letter case. *)
Fixpoint any_case (token s : string) : bool :=
  match token, s with
  | EmptyString, EmptyString => true
  | String a token', String b s' => same_letter a b && any_case token' s'
  | _, _ => false
  end.




(** Section 3: exactly one system message, and it is first. *)
Definition no_system (ms : list Message) : bool :=
  forallb (fun m => negb (is_system m)) ms.

Definition one_system_first (ms : list Message) : bool :=
  match ms with
  | first :: rest => is_system first && no_system rest
  | [] => false
  end.

(** ** Kinds of values and of events *)

(** [None], a [bool] or a number: values that [in] cannot search. *)
Definition is_scalar (v : value) : bool :=
  match v with
  | VNone | VBool _ | VNum _ => true
  | _ => false
  end.

Definition is_object (v : value) : bool :=
  match v with VDict _ => true | _ => false end.

(** What the bootstrap may do: run a child process for its output, write
    to the error stream. *)
Definition bootstrap_event (e : event) : bool :=
  match e with
  | Capture _ _ | Stderr _ => true
  | _ => false
  end.

(** ** Concrete replies and hosts, for running the program *)

Module Demo.

Definition quoted (s : string) : string := dquote ++ s ++ dquote.

(** The reply of the fixture of [tests/test_main.py]. *)
Definition test_command : string := "yt-dlp -i input.mp4 output.mp4".
Definition test_reply : string :=
  "{" ++ quoted "explanation" ++ ": [" ++ quoted "Test Explanation" ++ "], "
      ++ quoted "command" ++ ": " ++ quoted test_command ++ "}".

(** A refusal: the command is the empty string. *)
Definition refusal_reply : string :=
  "{" ++ quoted "explanation" ++ ": " ++ quoted "I cannot do that." ++ ", "
      ++ quoted "command" ++ ": " ++ dquote ++ dquote ++ "}".

(** A reply whose command is one blank. *)
Definition blank_reply : string :=
  "{" ++ quoted "explanation" ++ ": [" ++ quoted "a" ++ ", " ++ quoted "b" ++ "], "
      ++ quoted "command" ++ ": " ++ quoted " " ++ "}".

(** A reply with no [command] key, and one that is not JSON. *)
Definition incomplete_reply : string :=
  "{" ++ quoted "explanation" ++ ": " ++ quoted "only this" ++ "}".
Definition malformed_reply : string := "Sure! Here is your command:".

(** [json.loads] on the replies above. *)
Definition loads (raw : string) : option value :=
  if raw =? test_reply then
    Some (VDict [("explanation", VList [VStr "Test Explanation"]);
                 ("command", VStr test_command)])
  else if raw =? refusal_reply then
    Some (VDict [("explanation", VStr "I cannot do that.");
                 ("command", VStr "")])
  else if raw =? blank_reply then
    Some (VDict [("explanation", VList [VStr "a"; VStr "b"]);
                 ("command", VStr " ")])
  else if raw =? incomplete_reply then
    Some (VDict [("explanation", VStr "only this")])
  else None.

(** An endpoint that answers every conversation with the same text, as the
    mock of the tests does. *)
Definition always (raw : string) : list Message -> option string :=
  fun _ => Some raw.

(** [str] of the values that are not [str] is not needed by the replies
    above. *)
Definition no_str : value -> string := fun _ => "".

(** A Linux host with yt-dlp installed, and the same host without it. *)
Definition linux : Host :=
  mkHost (fun name => if name =? "yt-dlp" then Some "/usr/bin/yt-dlp" else None)
         "Linux"
         (fun argv _ =>
            match argv with
            | [_; "--version"] => Some ("2024.04.09" ++ nl)
            | ["lsb_release"; "-a"] => Some ("Description: Ubuntu 22.04" ++ nl)
            | _ => None
            end)
         (fun name => if name =? "SHELL" then Some "/bin/bash" else None)
         (Some "/bin/sh").

Definition bare : Host :=
  mkHost (fun _ => None) (platform_system linux) (run_capture linux)
         (getenv linux) (pw_shell linux).

Definition fresh : World := mkWorld [] [].

(** [subprocess.run(command, shell=True)] in the calling process, as
    CPython has it: a value that is no sequence is refused with
    [TypeError], and so is a sequence with an item that is no text; text
    with a NUL is refused with [ValueError]; anything else is handed to the
    shell and the call returns. *)
Definition spawn (command : value) : result unit :=
  match command with
  | VStr s => if has_nul s then Raise ValueError else Return tt
  | VNone | VBool _ | VNum _ => Raise TypeError
  | VList items =>
      if forallb is_str items
      then if existsb (fun v => match v with
                                | VStr s => has_nul s
                                | _ => false
                                end) items
           then Raise ValueError else Return tt
      else Raise TypeError
  | VDict entries =>
      if existsb (fun kv => has_nul (fst kv)) entries
      then Raise ValueError else Return tt
  end.

(** What [loads] makes of the replies. *)
Definition test_object : value :=
  VDict [("explanation", VList [VStr "Test Explanation"]);
         ("command", VStr test_command)].

Definition refusal_object : value :=
  VDict [("explanation", VStr "I cannot do that."); ("command", VStr "")].


End Demo.

(** ** More replies, endpoints and hosts *)

Module Cases.

Import Demo.

(** A reply whose explanation holds a number, one whose command is
    [null], an array of the two key names, and a bare number. *)
Definition numbered_reply : string :=
  "{" ++ quoted "explanation" ++ ": [" ++ quoted "a" ++ ", 1], "
      ++ quoted "command" ++ ": " ++ quoted "yt-dlp x" ++ "}".
Definition null_command_reply : string :=
  "{" ++ quoted "explanation" ++ ": " ++ quoted "nothing to run" ++ ", "
      ++ quoted "command" ++ ": null}".
Definition array_reply : string :=
  "[" ++ quoted "explanation" ++ ", " ++ quoted "command" ++ "]".
Definition number_reply : string := "42".

(** [json.loads] on the replies above and on those of [Demo]. *)
Definition loads (raw : string) : option value :=
  if raw =? numbered_reply then
    Some (VDict [("explanation", VList [VStr "a"; VNum "1"]);
                 ("command", VStr "yt-dlp x")])
  else if raw =? null_command_reply then
    Some (VDict [("explanation", VStr "nothing to run"); ("command", VNone)])
  else if raw =? array_reply then
    Some (VList [VStr "explanation"; VStr "command"])
  else if raw =? number_reply then Some (VNum "42")
  else Demo.loads raw.



(** A host of an unknown system, a Linux host without [lsb_release], a
    Linux host with an empty [SHELL], a Windows and a macOS host. *)
Definition plan9 : Host :=
  mkHost (which linux) "Plan9" (run_capture linux) (getenv linux)
         (pw_shell linux).

Definition minimal_linux : Host :=
  mkHost (which linux) "Linux"
         (fun argv _ =>
            match argv with
            | [_; "--version"] => Some ("2024.04.09" ++ nl)
            | _ => None
            end)
         (getenv linux) (pw_shell linux).

Definition no_shell_linux : Host :=
  mkHost (which linux) "Linux" (run_capture linux)
         (fun name => if name =? "SHELL" then Some "" else None)
         (Some "/bin/sh").

Definition windows : Host :=
  mkHost (fun name => if name =? "yt-dlp" then Some "C:\yt-dlp.exe" else None)
         "Windows"
         (fun argv shell =>
            match argv with
            | [_; "--version"] => Some ("2024.04.09" ++ nl)
            | ["ver"] => if shell then Some "Microsoft Windows" else None
            | _ => None
            end)
         (fun name => if name =? "SHELL" then Some "/usr/bin/bash" else None)
         None.

Definition macos : Host :=
  mkHost (which linux) "Darwin"
         (fun argv _ =>
            match argv with
            | [_; "--version"] => Some ("2024.04.09" ++ nl)
            | ["sw_vers"] => Some ("ProductName: macOS" ++ nl)
            | _ => None
            end)
         (fun name => if name =? "SHELL" then Some "/bin/zsh" else None)
         (Some "/bin/zsh").

End Cases.

(** ** The program *)

Section Program.

(** The remote endpoint behind [invoke_model]: its reply to the
    conversation it is sent, [None] when the transport fails.  A run never
    sends the same conversation twice (it grows before every call), so a
    function of the conversation stands for any sequence of replies. *)
Variable endpoint : list Message -> option string.

(** [json.loads]: the decoded value, [None] when it raises
    [JSONDecodeError]. *)
Variable json_loads : string -> option value.

(** [str(v)] for a value that is not a [str]. *)
Variable py_str : value -> string.

(** [s.upper()]: on ASCII text it capitalises the letters a to z and
    leaves the rest; on other text it is what Unicode makes it. *)
Variable py_upper : string -> string.
Hypothesis py_upper_ascii :
  forall s, ascii_text s = true -> py_upper s = upper s.

(** [subprocess.run(command, shell=True)] as the calling process sees it:
    [Return tt] when the call returns (whatever the child did: [check] is
    not set), [Raise e] when the call raises, as it does before any child
    is started for a command that is no sequence ([TypeError]) or holds a
    NUL ([ValueError]), or when the shell cannot be started. *)
Variable shell_outcome : value -> result unit.

Variable host : Host.

(** [subprocess.run(command, shell=True)]: the call is recorded, then it
    returns or raises as the calling process sees it; what the child
    process does is outside the program. *)
Definition subprocess_run (command : value) : M unit :=
  log (Shell command) ;;; lift (shell_outcome command).

(** *** The model client *)

(** Modelled from the spec: [LLMInterface.add_system_prompt] (module
    [ytdlpllm.llm_interface] is not among the sources); section 4.1:
    the three [add...Prompt] operations mutate the conversation state by
    appending a role-tagged message. *)
Definition add_system_prompt (text : string) : M unit :=
  fun w => (Return tt, mkWorld (messages w ++ [msg system text]) (trace w)).

(** Modelled from the spec: [LLMInterface.add_user_prompt], as
    [add_system_prompt]. *)
Definition add_user_prompt (text : string) : M unit :=
  fun w => (Return tt, mkWorld (messages w ++ [msg user text]) (trace w)).

(** Modelled from the spec: [LLMInterface.add_assistant_prompt], as
    [add_system_prompt]. *)
Definition add_assistant_prompt (text : string) : M unit :=
  fun w => (Return tt, mkWorld (messages w ++ [msg assistant text]) (trace w)).

(** Modelled from the spec: [LLMInterface.invoke_model]; section 4.1: it
    sends the full accumulated conversation state to the remote endpoint
    and returns the raw textual reply; a transport failure propagates as
    an error to the caller. *)
Definition invoke_model : M string :=
  fun w =>
    let w1 := mkWorld (messages w) (trace w ++ [Invoke (messages w)]) in
    match endpoint (messages w) with
    | Some raw => (Return raw, w1)
    | None => (Raise TransportError, w1)
    end.

(** *** Session bootstrap *)

(** [subprocess.run(argv, stdout=PIPE, stderr=PIPE, text=True).stdout]. *)
Definition capture (argv : list string) (shell : bool) : M string :=
  log (Capture argv shell) ;;;
  match run_capture host argv shell with
  | Some out => ret out
  | None => raise (FileNotFoundError (hd "" argv))
  end.

Definition get_ytdlp_executable : M string :=
  match which host "yt-dlp" with
  | None => raise (FileNotFoundError missing_ytdlp_text)
  | Some ytdlp_path => ret ytdlp_path
  end.

Definition get_ytdlp_version (self_ytdlp_executable : string) : M string :=
  capture [self_ytdlp_executable; "--version"] false.

Definition get_os_info : M (string * string) :=
  let os_type := platform_system host in
  if os_type =? "Windows" then
    out <- capture ["ver"] true ;; ret (os_type, out)
  else if os_type =? "Linux" then
    out <- capture ["lsb_release"; "-a"] false ;; ret (os_type, out)
  else if os_type =? "Darwin" then
    out <- capture ["sw_vers"] false ;; ret (os_type, out)
  else
    raise (NotImplementedError
             ("OS " ++ os_type ++ " not recognized. No specific command to run.")).

Definition get_default_shell : M (option string) :=
  info <- get_os_info ;;
  let os_type := fst info in
  if os_type =? "Linux" then
    match getenv host "SHELL" with
    | Some (String c rest) => ret (Some (String c rest))
    | Some EmptyString | None =>
        (* pwd.getpwuid(os.getuid()).pw_shell, None on KeyError *)
        ret (pw_shell host)
    end
  else if os_type =? "Windows" then ret (Some "cmd.exe")
  else if os_type =? "Darwin" then ret None
  else ret None.

(** [try: m except FileNotFoundError as e: handler e]. *)
Definition except_FileNotFoundError {A} (m : M A) (handler : string -> M A) : M A :=
  fun w => match m w with
           | (Raise (FileNotFoundError e), w1) => handler e w1
           | other => other
           end.

Definition __init__ : M YTDLPLLM :=
  ytdlp_executable <-
    except_FileNotFoundError get_ytdlp_executable
      (fun e => print_stderr e ;;; raise (SystemExit 1)) ;;
  ytdlp_version_info <- get_ytdlp_version ytdlp_executable ;;
  info <- get_os_info ;;
  default_shell <- get_default_shell ;;
  let prompt :=
    build_system_prompt (snd info) default_shell
      ytdlp_version_info ytdlp_executable in
  add_system_prompt prompt ;;;
  ret (mkYTDLPLLM ytdlp_executable ytdlp_version_info (fst info) (snd info)
         default_shell prompt).

(** *** Response validator *)

(** [for key in keys: if key not in json_output: raise KeyError(...)]. *)
Fixpoint require_keys (keys : list string) (json_output : value) : M unit :=
  match keys with
  | [] => ret tt
  | key :: rest =>
      present <- lift (contains key json_output) ;;
      if negb present then raise (KeyError missing_keys_text)
      else require_keys rest json_output
  end.

Definition generate_response : M (string * value) :=
  raw_output <- invoke_model ;;
  json_output <-
    match json_loads raw_output with
    | Some v => ret v
    | None => raise JSONDecodeError
    end ;;
  require_keys ["explanation"; "command"] json_output ;;;
  ret (raw_output, json_output).

Definition chat (command : string) : M (value * value) :=
  add_user_prompt command ;;;
  response <- generate_response ;;
  let raw_response := fst response in
  let parsed_response := snd response in
  add_assistant_prompt raw_response ;;;
  explanation <- lift (getitem parsed_response "explanation") ;;
  command <- lift (getitem parsed_response "command") ;;
  explanation <-
    match explanation with
    | VList items => lift (join bullet items)
    | _ => ret explanation
    end ;;
  ret (explanation, command).

(** *** Confirmation loop *)

(** [f"{v}"]. *)
Definition format (v : value) : string :=
  match v with VStr s => s | _ => py_str v end.

(** [run], given the lines the terminal will deliver to [input].  Every
    pass of [while True] that goes round again has read one of them, so
    the loop is a recursion on the lines still to come; with none left
    [input] raises [EOFError]. *)
Fixpoint run (inputs : list string) (command : string) : M unit :=
  answer <- chat command ;;
  let explanation := fst answer in
  let command := snd answer in
  if is_empty_str command then
    print refusal_text
  else
    print (format explanation) ;;;
    print (nl ++ tab ++ format command ++ nl) ;;;
    log (Prompt confirm_prompt) ;;;
    match inputs with
    | [] => raise EOFError
    | confirmation :: rest =>
        if str_in (py_upper confirmation) abort_tokens then ret tt
        else if negb (py_upper confirmation =? "Y") && negb (confirmation =? "")
        then run rest confirmation
        else subprocess_run command
    end.

(** The end of [main]: [YTDLPLLM(llm).run(" ".join(args.instructions))]. *)
Definition main (instructions inputs : list string) : M unit :=
  __init__ ;;; run inputs (String.concat " " instructions).

Local Open Scope list_scope.
Unset Implicit Arguments.

(** ** The worlds a run goes through *)

(** After [add_user_prompt command]. *)
Definition told (w : World) (command : string) : World :=
  mkWorld (messages w ++ [msg user command]) (trace w).

(** After [invoke_model]. *)
Definition asked (w : World) : World :=
  mkWorld (messages w) (trace w ++ [Invoke (messages w)]).

(** After [add_assistant_prompt raw]. *)
Definition answered (w : World) (raw : string) : World :=
  mkWorld (messages w ++ [msg assistant raw]) (trace w).

(** After the explanation and the command are shown and the user is asked. *)
Definition offered (w : World) (explanation command : value) : World :=
  mkWorld (messages w)
    (trace w ++ [Stdout (format explanation);
                 Stdout (nl ++ tab ++ format command ++ nl);
                 Prompt confirm_prompt]).

(** What [chat] makes of the explanation. *)
Definition display (explanation : value) : result value :=
  match explanation with
  | VList items => join bullet items
  | _ => Return explanation
  end.

(** After the refusal message, and after the command is handed to the
    shell. *)
Definition refused (w : World) : World :=
  mkWorld (messages w) (trace w ++ [Stdout refusal_text]).

Definition executed (w : World) (command : value) : World :=
  mkWorld (messages w) (trace w ++ [Shell command]).

(** [join] raises [TypeError] unless every item is a [str]; an
    explanation passes through [chat] when it is no list, or a list of
    [str]. *)
Definition joinable (explanation : value) : bool :=
  match explanation with
  | VList items => forallb is_str items
  | _ => true
  end.

(** A step of the bootstrap that leaves the conversation alone and does
    not call the model. *)
Definition quiet {A} (m : M A) : Prop :=
  forall w, messages (snd (m w)) = messages w
            /\ invocations (trace (snd (m w))) = invocations (trace w).

(** A step of the bootstrap that does nothing to the outside but run
    child processes for their output or write to the error stream. *)
Definition probing {A} (m : M A) : Prop :=
  forall w, exists t,
    trace (snd (m w)) = trace w ++ t
    /\ forallb bootstrap_event t = true.

(** The default shell on Linux: [SHELL] when it is set and not empty,
    else the shell of the passwd entry, if there is one. *)
Definition linux_shell (h : Host) : option string :=
  match getenv h "SHELL" with
  | Some (String c rest) => Some (String c rest)
  | Some EmptyString | None => pw_shell h
  end.

Ltac worlds :=
  unfold executed, offered, refused, answered, asked, told, format;
  cbn [messages trace fst snd];
  rewrite <- ?app_assoc; cbn [app].

(** ** Properties *)

(** *** Dictionaries, traces *)

Lemma lookup_str_in key entries v :
  lookup key entries = Some v -> str_in key (map fst entries) = true.
Proof.
  unfold str_in.
  induction entries as [|[k x] rest IH]; simpl; [discriminate|].
  destruct (key =? k); [reflexivity|]. exact IH.
Qed.

Lemma lookup_none_str_in key entries :
  lookup key entries = None -> str_in key (map fst entries) = false.
Proof.
  unfold str_in.
  induction entries as [|[k x] rest IH]; simpl; [reflexivity|].
  destruct (key =? k); [discriminate|]. exact IH.
Qed.

Lemma shell_calls_app t1 t2 :
  shell_calls (t1 ++ t2) = shell_calls t1 ++ shell_calls t2.
Proof. apply flat_map_app. Qed.

Lemma prompts_app t1 t2 : prompts (t1 ++ t2) = prompts t1 ++ prompts t2.
Proof. apply flat_map_app. Qed.

Lemma invocations_app t1 t2 :
  invocations (t1 ++ t2) = invocations t1 ++ invocations t2.
Proof. apply flat_map_app. Qed.

Lemma strings_texts items :
  forallb is_str items = true -> exists l, strings items = Some l.
Proof.
  induction items as [|v rest IH]; simpl; [eauto|].
  destruct v; simpl; try discriminate.
  intros H. destruct (IH H) as [l ->]. eauto.
Qed.

Lemma strings_map_VStr l : strings (map VStr l) = Some l.
Proof. induction l as [|s l IH]; simpl; [reflexivity|]. now rewrite IH. Qed.

Lemma display_text_or_texts explanation :
  text_or_texts explanation = true ->
  exists shown, display explanation = Return (VStr shown).
Proof.
  destruct explanation; simpl; try discriminate; [eauto|].
  intros H. unfold join. destruct (strings_texts _ H) as [l ->]. eauto.
Qed.

Lemma display_joinable explanation :
  joinable explanation = true ->
  exists shown, display explanation = Return shown.
Proof.
  destruct explanation; cbn [display joinable]; eauto.
  intros H. unfold join. destruct (strings_texts _ H) as [l ->]. eauto.
Qed.

(** *** The validator and [chat], case by case *)

Lemma generate_response_undecodable w raw :
  endpoint (messages w) = Some raw ->
  json_loads raw = None ->
  generate_response w = (Raise JSONDecodeError, asked w).
Proof.
  intros He Hj. unfold generate_response, bind, invoke_model.
  rewrite He, Hj. reflexivity.
Qed.

Lemma generate_response_missing_key w raw entries :
  endpoint (messages w) = Some raw ->
  json_loads raw = Some (VDict entries) ->
  lookup "explanation" entries = None \/ lookup "command" entries = None ->
  generate_response w = (Raise (KeyError missing_keys_text), asked w).
Proof.
  intros He Hj Hk. unfold generate_response, bind, invoke_model.
  rewrite He, Hj. unfold ret, require_keys, bind, lift, contains.
  destruct (lookup "explanation" entries) as [e|] eqn:E1.
  - rewrite (lookup_str_in _ _ _ E1). simpl negb. cbv iota.
    destruct Hk as [Hk|Hk]; [discriminate|].
    rewrite (lookup_none_str_in _ _ Hk). reflexivity.
  - rewrite (lookup_none_str_in _ _ E1). reflexivity.
Qed.

Lemma generate_response_both_keys w raw entries e c :
  endpoint (messages w) = Some raw ->
  json_loads raw = Some (VDict entries) ->
  lookup "explanation" entries = Some e ->
  lookup "command" entries = Some c ->
  generate_response w = (Return (raw, VDict entries), asked w).
Proof.
  intros He Hj E1 E2. unfold generate_response, bind, invoke_model.
  rewrite He, Hj. unfold ret, require_keys, bind, lift, contains.
  rewrite (lookup_str_in _ _ _ E1), (lookup_str_in _ _ _ E2). reflexivity.
Qed.

Lemma chat_raises command w x :
  generate_response (told w command) = (Raise x, asked (told w command)) ->
  chat command w = (Raise x, asked (told w command)).
Proof.
  intros H. unfold chat, bind at 1. unfold add_user_prompt.
  fold (told w command). unfold bind. rewrite H. reflexivity.
Qed.

Lemma chat_object command w raw entries e c :
  endpoint (messages w ++ [msg user command]) = Some raw ->
  json_loads raw = Some (VDict entries) ->
  lookup "explanation" entries = Some e ->
  lookup "command" entries = Some c ->
  chat command w =
    (match display e with
     | Return shown => Return (shown, c)
     | Raise x => Raise x
     end,
     answered (asked (told w command)) raw).
Proof.
  intros He Hj E1 E2. unfold chat, bind at 1. unfold add_user_prompt.
  fold (told w command). unfold bind at 1.
  rewrite (generate_response_both_keys (told w command) _ _ _ _ He Hj E1 E2).
  unfold bind, add_assistant_prompt, lift, getitem. cbn [fst snd].
  rewrite E1, E2. fold (answered (asked (told w command)) raw).
  unfold display, ret.
  destruct e; try reflexivity.
  destruct (join bullet items); reflexivity.
Qed.

(** A reply that decodes to something that is no object never comes back
    from [chat]: the membership test raises [TypeError] on [None], a
    [bool] or a number; a list or a [str] either fails the test
    ([KeyError]) or passes it and then cannot be indexed by a key
    ([TypeError]). *)
Lemma chat_non_object command w raw v :
  endpoint (messages w ++ [msg user command]) = Some raw ->
  json_loads raw = Some v ->
  (forall entries, v <> VDict entries) ->
  exists x w1, chat command w = (Raise x, w1).
Proof.
  intros He Hj Hv. unfold chat, bind at 1. unfold add_user_prompt.
  unfold bind at 1. unfold generate_response, bind at 1.
  unfold invoke_model. cbn [messages trace]. rewrite He.
  unfold bind at 1. rewrite Hj. unfold ret at 1. unfold bind at 1.
  unfold require_keys, bind, lift, ret, raise.
  destruct v as [| | | |items|entries]; cbn [contains];
    try (do 2 eexists; reflexivity).
  - destruct (occurs "explanation" s); cbn [negb];
      [|do 2 eexists; reflexivity].
    destruct (occurs "command" s); cbn [negb]; do 2 eexists; reflexivity.
  - destruct (existsb (eq_str "explanation") items); cbn [negb];
      [|do 2 eexists; reflexivity].
    destruct (existsb (eq_str "command") items); cbn [negb];
      do 2 eexists; reflexivity.
  - now destruct (Hv entries).
Qed.

(** *** One pass of the loop *)

Lemma run_eq inputs command w :
  run inputs command w =
    match chat command w with
    | (Raise x, w1) => (Raise x, w1)
    | (Return (explanation, cmd), w1) =>
        if is_empty_str cmd then (Return tt, refused w1)
        else
          match inputs with
          | [] => (Raise EOFError, offered w1 explanation cmd)
          | confirmation :: rest =>
              if str_in (py_upper confirmation) abort_tokens
              then (Return tt, offered w1 explanation cmd)
              else if negb (py_upper confirmation =? "Y")%string
                      && negb (confirmation =? "")%string
              then run rest confirmation (offered w1 explanation cmd)
              else (shell_outcome cmd,
                    executed (offered w1 explanation cmd) cmd)
          end
    end.
Proof.
  destruct inputs as [|confirmation rest]; cbn [run]; unfold bind;
    destruct (chat command w) as [[[e c]|x] w1]; try reflexivity;
    cbn [fst snd]; destruct (is_empty_str c); try reflexivity;
    unfold print, log, raise, ret, subprocess_run, offered, executed;
    cbn [messages trace]; rewrite <- ?app_assoc; cbn [app];
    try reflexivity.
  destruct (str_in (py_upper confirmation) abort_tokens); [reflexivity|].
  destruct (negb (py_upper confirmation =? "Y")%string
            && negb (confirmation =? "")%string); [reflexivity|].
  unfold bind, lift, log; cbn [messages trace]. now rewrite <- app_assoc.
Qed.

Lemma chat_well_formed command w raw reply cmd :
  endpoint (messages w ++ [msg user command]) = Some raw ->
  json_loads raw = Some reply ->
  well_formed reply = true ->
  command_of reply = Some (VStr cmd) ->
  exists shown,
    chat command w =
      (Return (VStr shown, VStr cmd), answered (asked (told w command)) raw).
Proof.
  intros He Hj Hwf Hc.
  destruct reply as [| | | | |entries]; try discriminate.
  cbn [well_formed command_of] in Hwf, Hc.
  destruct (lookup "explanation" entries) as [e|] eqn:E1; [|discriminate].
  rewrite Hc in Hwf.
  destruct (display_text_or_texts _ Hwf) as [shown Hs].
  exists shown. rewrite (chat_object command w _ _ _ _ He Hj E1 Hc), Hs. reflexivity.
Qed.

(** *** Letter case *)

Lemma upper_ascii_nat a :
  upper_ascii a =
    ascii_of_nat (let n := nat_of_ascii a in
                  if ((97 <=? n) && (n <=? 122))%nat then n - 32 else n).
Proof.
  unfold upper_ascii. cbv zeta.
  destruct ((97 <=? nat_of_ascii a) && (nat_of_ascii a <=? 122))%nat;
    [reflexivity|].
  symmetry. apply ascii_nat_embedding.
Qed.

Lemma same_letter_upper a b :
  same_letter a b = true -> upper_ascii a = upper_ascii b.
Proof.
  rewrite !upper_ascii_nat. unfold same_letter. cbv zeta.
  generalize (nat_of_ascii a) (nat_of_ascii b). intros m n H.
  assert (Hc : m = n \/ (65 <= m <= 90 /\ n = m + 32)
               \/ (65 <= n <= 90 /\ m = n + 32)).
  { rewrite !orb_true_iff, !andb_true_iff, !Nat.leb_le, !Nat.eqb_eq in H.
    lia. }
  clear H. f_equal.
  destruct (Nat.leb_spec 97 m), (Nat.leb_spec m 122),
           (Nat.leb_spec 97 n), (Nat.leb_spec n 122); cbn; lia.
Qed.

Lemma any_case_upper token : forall s,
  any_case token s = true -> upper s = upper token.
Proof.
  induction token as [|a token IH]; intros [|b s]; simpl; try discriminate;
    [reflexivity|].
  intros H. apply andb_true_iff in H. destruct H as [Hab Hs].
  now rewrite (IH _ Hs), (same_letter_upper _ _ Hab).
Qed.

Lemma same_letter_ascii a b :
  same_letter a b = true ->
  (nat_of_ascii a <? 128)%nat = true -> (nat_of_ascii b <? 128)%nat = true.
Proof.
  unfold same_letter. cbv zeta.
  generalize (nat_of_ascii a) (nat_of_ascii b). intros m n H Hm.
  rewrite !orb_true_iff, !andb_true_iff, !Nat.leb_le, !Nat.eqb_eq in H.
  apply Nat.ltb_lt in Hm. apply Nat.ltb_lt. lia.
Qed.

Lemma any_case_ascii token : forall s,
  any_case token s = true -> ascii_text token = true -> ascii_text s = true.
Proof.
  induction token as [|a token IH]; intros [|b s]; simpl; try discriminate;
    [reflexivity|].
  intros H Ht. apply andb_true_iff in H. destruct H as [Hab Hs].
  apply andb_true_iff in Ht. destruct Ht as [Ha Ht].
  now rewrite (same_letter_ascii _ _ Hab Ha), (IH _ Hs Ht).
Qed.

Lemma abort_token_any_case token s :
  In token abort_tokens -> any_case token s = true ->
  str_in (py_upper s) abort_tokens = true.
Proof.
  intros Hin Hs.
  assert (Ht : ascii_text token = true).
  { simpl in Hin. destruct Hin as [<-|[<-|[<-|[<-|[]]]]]; reflexivity. }
  rewrite (py_upper_ascii _ (any_case_ascii _ _ Hs Ht)).
  rewrite (any_case_upper _ _ Hs).
  simpl in Hin.
  destruct Hin as [<-|[<-|[<-|[<-|[]]]]]; reflexivity.
Qed.


Lemma is_empty_str_VStr cmd :
  is_empty_str (VStr cmd) = true <-> cmd = ""%string.
Proof.
  unfold is_empty_str, eq_str. rewrite String.eqb_eq. split; congruence.
Qed.


(** *** The confirmation loop on a well-formed reply *)


(** C2: for every well-formed model reply with a non-empty command, when
    the confirmation input is one of the tokens N, NO, Q, QUIT written in
    any letter case, the loop returns at once and nothing is handed to the
    shell. *)
Theorem run_declined_never_executes
  w initial raw reply cmd token confirmation rest :
  endpoint (messages w ++ [msg user initial]) = Some raw ->
  json_loads raw = Some reply ->
  well_formed reply = true ->
  command_of reply = Some (VStr cmd) ->
  cmd <> ""%string ->
  In token abort_tokens ->
  any_case token confirmation = true ->
  (exists shown,
     run (confirmation :: rest) initial w =
       (Return tt,
        mkWorld (messages w ++ [msg user initial; msg assistant raw])
          (trace w ++ [Invoke (messages w ++ [msg user initial]);
                       Stdout shown;
                       Stdout (nl ++ tab ++ cmd ++ nl);
                       Prompt confirm_prompt])))
  /\ shell_calls (trace (snd (run (confirmation :: rest) initial w))) =
       shell_calls (trace w).
Proof.
  intros He Hj Hwf Hc Hne Hin Hany.
  destruct (chat_well_formed initial w _ _ _ He Hj Hwf Hc) as [shown Hchat].
  pose proof (abort_token_any_case _ _ Hin Hany) as Hn.
  assert (Hempty : is_empty_str (VStr cmd) = false).
  { destruct (is_empty_str (VStr cmd)) eqn:E; [|reflexivity].
    apply is_empty_str_VStr in E. contradiction. }
  assert (Hrun : run (confirmation :: rest) initial w =
       (Return tt,
        mkWorld (messages w ++ [msg user initial; msg assistant raw])
          (trace w ++ [Invoke (messages w ++ [msg user initial]);
                       Stdout shown;
                       Stdout (nl ++ tab ++ cmd ++ nl);
                       Prompt confirm_prompt]))).
  { rewrite run_eq, Hchat, Hempty, Hn. worlds. reflexivity. }
  split; [exists shown; exact Hrun|].
  rewrite Hrun. cbn [snd trace]. rewrite shell_calls_app.
  cbn. now rewrite app_nil_r.
Qed.

(** C3: for every model reply whose command field is the empty string the
    loop stops without asking the user and without handing anything to the
    shell; when the reply also has its explanation (text, a sequence of
    text, or anything that is not a list) the loop returns right after
    printing the refusal message. *)
Theorem run_empty_command_refused w initial raw reply inputs :
  endpoint (messages w ++ [msg user initial]) = Some raw ->
  json_loads raw = Some reply ->
  command_of reply = Some (VStr "") ->
  (prompts (trace (snd (run inputs initial w))) = prompts (trace w)
   /\ shell_calls (trace (snd (run inputs initial w))) = shell_calls (trace w))
  /\ (forall explanation,
        explanation_of reply = Some explanation ->
        joinable explanation = true ->
        run inputs initial w =
          (Return tt,
           mkWorld (messages w ++ [msg user initial; msg assistant raw])
             (trace w ++ [Invoke (messages w ++ [msg user initial]);
                          Stdout refusal_text]))).
Proof.
  intros He Hj Hc.
  destruct reply as [| | | | |entries]; try discriminate.
  cbn [command_of] in Hc.
  split.
  - rewrite run_eq.
    destruct (lookup "explanation" entries) as [e|] eqn:E1.
    + rewrite (chat_object initial w _ _ _ _ He Hj E1 Hc).
      destruct (display e) as [shown|x]; cbn [is_empty_str eq_str String.eqb];
        worlds; rewrite prompts_app, shell_calls_app; cbn;
        now rewrite !app_nil_r.
    + rewrite (chat_raises initial w _
                 (generate_response_missing_key (told w initial) _ _ He Hj
                    (or_introl E1))).
      worlds. rewrite prompts_app, shell_calls_app; cbn.
      now rewrite !app_nil_r.
  - intros e E1 Hjoin. cbn [explanation_of] in E1.
    destruct (display_joinable _ Hjoin) as [shown Hs].
    rewrite run_eq, (chat_object initial w _ _ _ _ He Hj E1 Hc), Hs.
    cbn [is_empty_str eq_str String.eqb]. worlds. reflexivity.
Qed.

(** *** The response validator *)

(** C5: the validator raises [JSONDecodeError] when the raw reply is not
    valid JSON and [KeyError] when the decoded object lacks the key
    [explanation] or the key [command]; either way [run] ends with that
    exception right after the model call, before anything is shown and
    before the confirmation prompt; with both keys present the validator
    returns the raw text and the decoded object. *)
Theorem validator_rejects_before_prompt w command inputs raw :
  endpoint (messages w ++ [msg user command]) = Some raw ->
  (json_loads raw = None ->
     generate_response (told w command) =
       (Raise JSONDecodeError, asked (told w command))
     /\ run inputs command w =
          (Raise JSONDecodeError, asked (told w command)))
  /\ (forall entries,
        json_loads raw = Some (VDict entries) ->
        lookup "explanation" entries = None
          \/ lookup "command" entries = None ->
        generate_response (told w command) =
          (Raise (KeyError missing_keys_text), asked (told w command))
        /\ run inputs command w =
             (Raise (KeyError missing_keys_text), asked (told w command)))
  /\ (forall entries e c,
        json_loads raw = Some (VDict entries) ->
        lookup "explanation" entries = Some e ->
        lookup "command" entries = Some c ->
        generate_response (told w command) =
          (Return (raw, VDict entries), asked (told w command)))
  /\ prompts (trace (asked (told w command))) = prompts (trace w).
Proof.
  intros He. split; [|split; [|split]].
  - intros Hj.
    pose proof (generate_response_undecodable (told w command) _ He Hj) as Hg.
    split; [exact Hg|].
    now rewrite run_eq, (chat_raises command w _ Hg).
  - intros entries Hj Hk.
    pose proof (generate_response_missing_key (told w command) _ _ He Hj Hk)
      as Hg.
    split; [exact Hg|].
    now rewrite run_eq, (chat_raises command w _ Hg).
  - intros entries e c Hj E1 E2.
    exact (generate_response_both_keys (told w command) _ _ _ _ He Hj E1 E2).
  - worlds. rewrite prompts_app. cbn. now rewrite app_nil_r.
Qed.

Lemma append_nil_r (s : string) : (s ++ "")%string = s.
Proof. induction s as [|c s IH]; simpl; [reflexivity|]. now rewrite IH. Qed.

Lemma append_assoc (a b c : string) :
  ((a ++ b) ++ c)%string = (a ++ b ++ c)%string.
Proof. induction a as [|x a IH]; simpl; [reflexivity|]. now rewrite IH. Qed.

(** Joining keeps every element where it was: an element comes after the
    join of the elements before it and before the join of those after it. *)
Lemma concat_element sep before x after :
  String.concat sep (before ++ x :: after) =
    ((match before with
      | [] => ""
      | _ :: _ => String.concat sep before ++ sep
      end)
     ++ x
     ++ (match after with
         | [] => ""
         | _ :: _ => sep ++ String.concat sep after
         end))%string.
Proof.
  induction before as [|b bs IH].
  - destruct after; simpl; [now rewrite append_nil_r|reflexivity].
  - change ((b :: bs) ++ x :: after) with (b :: (bs ++ x :: after)).
    destruct bs as [|b2 bs].
    + change (String.concat sep (b :: [] ++ x :: after))
        with (b ++ sep ++ String.concat sep ([] ++ x :: after))%string.
      rewrite IH. cbn [String.concat]. now rewrite append_assoc.
    + change (String.concat sep (b :: (b2 :: bs) ++ x :: after))
        with (b ++ sep ++ String.concat sep ((b2 :: bs) ++ x :: after))%string.
      rewrite IH.
      change (String.concat sep (b :: b2 :: bs))
        with (b ++ sep ++ String.concat sep (b2 :: bs))%string.
      now rewrite !append_assoc.
Qed.

(** C6: an explanation that is a sequence of strings comes back from
    [chat] as the single string that joins them with the separator made
    of a line feed, a dash and a blank, every element kept and in its
    place; an explanation that is one string comes back unchanged. *)
Theorem chat_renders_explanation w command raw entries c :
  endpoint (messages w ++ [msg user command]) = Some raw ->
  json_loads raw = Some (VDict entries) ->
  lookup "command" entries = Some c ->
  (forall texts,
     lookup "explanation" entries = Some (VList (map VStr texts)) ->
     fst (chat command w) = Return (VStr (String.concat bullet texts), c))
  /\ (forall before x after,
        String.concat bullet (before ++ x :: after) =
          ((match before with
            | [] => ""
            | _ :: _ => String.concat bullet before ++ bullet
            end)
           ++ x
           ++ (match after with
               | [] => ""
               | _ :: _ => bullet ++ String.concat bullet after
               end))%string)
  /\ (forall text,
        lookup "explanation" entries = Some (VStr text) ->
        fst (chat command w) = Return (VStr text, c)).
Proof.
  intros He Hj Hc. repeat split.
  - intros texts E1. rewrite (chat_object command w _ _ _ _ He Hj E1 Hc).
    cbn [display]. unfold join. now rewrite strings_map_VStr.
  - intros. apply concat_element.
  - intros text E1. now rewrite (chat_object command w _ _ _ _ He Hj E1 Hc).
Qed.

(** C4, as the code has it: once the validator has accepted the raw reply
    (valid JSON with both keys), [chat] appends it to the conversation as
    an assistant message before the command is looked at, whether or not
    the command is empty; with an empty command the loop then stops, the
    reply already in the history. *)
Theorem chat_keeps_every_accepted_reply w command inputs raw entries e c :
  endpoint (messages w ++ [msg user command]) = Some raw ->
  json_loads raw = Some (VDict entries) ->
  lookup "explanation" entries = Some e ->
  lookup "command" entries = Some c ->
  messages (snd (chat command w)) =
    messages w ++ [msg user command; msg assistant raw]
  /\ (c = VStr "" ->
      messages (snd (run inputs command w)) =
        messages w ++ [msg user command; msg assistant raw]).
Proof.
  intros He Hj E1 E2.
  pose proof (chat_object command w _ _ _ _ He Hj E1 E2) as Hchat.
  split.
  - rewrite Hchat. worlds. reflexivity.
  - intros ->. rewrite run_eq, Hchat.
    destruct (display e); cbn [is_empty_str eq_str String.eqb]; worlds;
      reflexivity.
Qed.

(** *** Session bootstrap *)

(** C7: when [yt-dlp] is not on the search path, constructing the session
    prints the diagnostic on the error stream and exits with code 1; no
    message is added to the conversation and the model is never invoked,
    by [__init__] or by anything after it in [main]. *)
Theorem missing_executable_exits_1 w instructions inputs :
  which host "yt-dlp" = None ->
  __init__ w =
    (Raise (SystemExit 1),
     mkWorld (messages w) (trace w ++ [Stderr missing_ytdlp_text]))
  /\ main instructions inputs w =
       (Raise (SystemExit 1),
        mkWorld (messages w) (trace w ++ [Stderr missing_ytdlp_text]))
  /\ invocations (trace (snd (main instructions inputs w))) =
       invocations (trace w).
Proof.
  intros Hw.
  assert (Hi : __init__ w =
    (Raise (SystemExit 1),
     mkWorld (messages w) (trace w ++ [Stderr missing_ytdlp_text]))).
  { unfold __init__, bind at 1, except_FileNotFoundError, get_ytdlp_executable.
    rewrite Hw. reflexivity. }
  assert (Hm : main instructions inputs w =
    (Raise (SystemExit 1),
     mkWorld (messages w) (trace w ++ [Stderr missing_ytdlp_text]))).
  { unfold main, bind at 1. now rewrite Hi. }
  repeat split; [exact Hi|exact Hm|].
  rewrite Hm. cbn [snd trace]. rewrite invocations_app. cbn.
  now rewrite app_nil_r.
Qed.

(** *** The conversation only grows *)

(** What [chat] leaves behind, whatever the endpoint and the decoder
    answer: the user message, then at most the assistant message, and one
    model call on the conversation that ends with the user message. *)
Lemma chat_world command w :
  exists reply,
    snd (chat command w) =
      mkWorld (messages w ++ msg user command :: reply)
        (trace w ++ [Invoke (messages w ++ [msg user command])])
    /\ no_system reply = true.
Proof.
  unfold chat, bind at 1. unfold add_user_prompt.
  unfold bind at 1. unfold generate_response, bind at 1.
  unfold invoke_model. cbn [messages trace].
  destruct (endpoint (messages w ++ [msg user command])) as [raw|];
    [|exists []; split; reflexivity].
  unfold bind at 1.
  destruct (json_loads raw) as [v|]; [|exists []; split; reflexivity].
  unfold ret at 1. unfold bind at 1.
  destruct (require_keys ["explanation"; "command"]%string v _)
    as [[[]|x] w1] eqn:Hk.
  - assert (w1 = mkWorld (messages w ++ [msg user command])
                   (trace w ++ [Invoke (messages w ++ [msg user command])])).
    { revert Hk. unfold require_keys, bind, lift, ret, raise.
      destruct (contains "explanation" v) as [[]|]; cbn; try congruence.
      destruct (contains "command" v) as [[]|]; cbn; congruence. }
    subst w1. exists [msg assistant raw]. split; [|reflexivity].
    unfold ret at 1. unfold bind, add_assistant_prompt, lift.
    cbn [fst snd messages trace].
    destruct (getitem v "explanation") as [e|]; cbn [snd];
      [|now rewrite <- app_assoc].
    destruct (getitem v "command") as [c|]; cbn [snd];
      [|now rewrite <- app_assoc].
    destruct e; unfold ret; cbn [snd]; try now rewrite <- app_assoc.
    destruct (join bullet items); cbn [snd]; now rewrite <- app_assoc.
  - assert (w1 = mkWorld (messages w ++ [msg user command])
                   (trace w ++ [Invoke (messages w ++ [msg user command])])).
    { revert Hk. unfold require_keys, bind, lift, ret, raise.
      destruct (contains "explanation" v) as [[]|]; cbn; try congruence.
      destruct (contains "command" v) as [[]|]; cbn; congruence. }
    subst w1. exists []. split; reflexivity.
Qed.

Lemma no_system_app ms1 ms2 :
  no_system (ms1 ++ ms2) = no_system ms1 && no_system ms2.
Proof. apply forallb_app. Qed.

(** What [run] leaves behind, whatever is typed and whatever the model
    replies: the conversation it found, then the user message it was
    started with, then messages that are not system messages; the first
    thing it does is the model call on the conversation that ends with that
    user message, and every later model call is on an extension of the
    conversation it found by messages that are not system messages. *)
Lemma run_world : forall inputs command w,
  exists ms t,
    snd (run inputs command w) =
      mkWorld (messages w ++ msg user command :: ms)
        (trace w ++ Invoke (messages w ++ [msg user command]) :: t)
    /\ no_system ms = true
    /\ Forall (fun context =>
                 exists ms', context = messages w ++ ms'
                             /\ no_system ms' = true)
         (invocations t).
Proof.
  induction inputs as [|confirmation rest IH]; intros command w;
    rewrite run_eq;
    destruct (chat_world command w) as (reply & Hw & Hr);
    destruct (chat command w) as [[[e c]|x] w1]; cbn [snd] in Hw; subst w1;
    try (exists reply, []; repeat split; [exact Hr|constructor]).
  - destruct (is_empty_str c); worlds;
      eexists reply, _; repeat split; try exact Hr; constructor.
  - destruct (is_empty_str c);
      [worlds; eexists reply, _; repeat split; try exact Hr; constructor|].
    destruct (str_in (py_upper confirmation) abort_tokens);
      [worlds; eexists reply, _; repeat split; try exact Hr; constructor|].
    destruct (negb (py_upper confirmation =? "Y")%string
              && negb (confirmation =? "")%string);
      [|worlds; eexists reply, _; repeat split; try exact Hr; constructor].
    destruct (IH confirmation
                (offered
                   (mkWorld (messages w ++ msg user command :: reply)
                      (trace w ++ [Invoke (messages w ++ [msg user command])]))
                   e c)) as (ms2 & t2 & Hw2 & Hr2 & Hinv).
    rewrite Hw2. worlds.
    exists (reply ++ msg user confirmation :: ms2).
    eexists. split; [reflexivity|]. split.
    + rewrite no_system_app, Hr. cbn. exact Hr2.
    + cbn. constructor.
      * exists (msg user command :: reply ++ [msg user confirmation]).
        split; [reflexivity|]. cbn. rewrite no_system_app, Hr. reflexivity.
      * revert Hinv. apply Forall_impl. intros context (ms' & -> & Hms').
        exists (msg user command :: reply ++ ms'). cbn [messages offered].
        rewrite <- app_assoc. split; [reflexivity|].
        cbn. rewrite no_system_app, Hr. exact Hms'.
Qed.




(** *** The system message *)

Lemma quiet_ret {A} (a : A) : quiet (ret a).
Proof. intros w. split; reflexivity. Qed.

Lemma quiet_raise {A} (x : exn) : quiet (@raise A x).
Proof. intros w. split; reflexivity. Qed.

Lemma quiet_bind {A B} (m : M A) (k : A -> M B) :
  quiet m -> (forall a, quiet (k a)) -> quiet (bind m k).
Proof.
  intros Hm Hk w. unfold bind. specialize (Hm w).
  destruct (m w) as [[a|x] w1]; cbn [snd] in *; [|exact Hm].
  destruct Hm as [Hm1 Hm2]. destruct (Hk a w1) as [Hk1 Hk2].
  split; congruence.
Qed.

Lemma quiet_capture argv shell : quiet (capture argv shell).
Proof.
  apply quiet_bind.
  - intros w. unfold log. cbn [snd messages trace].
    rewrite invocations_app. cbn. now rewrite app_nil_r.
  - intros _. destruct (run_capture host argv shell);
      [apply quiet_ret|apply quiet_raise].
Qed.

Lemma quiet_get_os_info : quiet get_os_info.
Proof.
  unfold get_os_info.
  repeat match goal with
         | |- quiet (if ?b then _ else _) => destruct b
         | |- quiet (bind _ _) => apply quiet_bind; [apply quiet_capture|intros]
         | |- quiet (ret _) => apply quiet_ret
         | |- quiet (raise _) => apply quiet_raise
         end.
Qed.

Lemma quiet_get_default_shell : quiet get_default_shell.
Proof.
  unfold get_default_shell.
  apply quiet_bind; [apply quiet_get_os_info|intros info].
  repeat match goal with
         | |- quiet (if ?b then _ else _) => destruct b
         | |- quiet (match ?x with _ => _ end) => destruct x
         | |- quiet (ret _) => apply quiet_ret
         end.
Qed.

Lemma quiet_get_ytdlp_executable :
  quiet (except_FileNotFoundError get_ytdlp_executable
           (fun e => print_stderr e ;;; raise (SystemExit 1))).
Proof.
  intros w. unfold except_FileNotFoundError, get_ytdlp_executable.
  destruct (which host "yt-dlp"); cbn; [split; reflexivity|].
  rewrite invocations_app. cbn. now rewrite app_nil_r.
Qed.

(** [__init__] adds the system message, once and last, when it returns,
    and nothing when it raises; it never calls the model. *)
Lemma init_world w :
  match __init__ w with
  | (Return self, w1) =>
      messages w1 = messages w ++ [msg system (system_prompt self)]
  | (Raise _, w1) => messages w1 = messages w
  end
  /\ invocations (trace (snd (__init__ w))) = invocations (trace w).
Proof.
  assert (H : forall r w5, __init__ w = (r, w5) ->
    match r with
    | Return self =>
        messages w5 = messages w ++ [msg system (system_prompt self)]
    | Raise _ => messages w5 = messages w
    end
    /\ invocations (trace w5) = invocations (trace w)).
  { intros r w5. unfold __init__. unfold bind at 1.
    pose proof (quiet_get_ytdlp_executable w) as [Hm1 Ht1].
    destruct (except_FileNotFoundError _ _ w) as [[exe|x] w1];
      cbn [snd] in *;
      [|intros E; injection E as <- <-; split; assumption].
    unfold bind at 1.
    pose proof (quiet_capture [exe; "--version"%string] false w1) as [Hm2 Ht2].
    unfold get_ytdlp_version.
    destruct (capture _ _ w1) as [[ver|x] w2];
      cbn [snd] in *;
      [|intros E; injection E as <- <-; split; congruence].
    unfold bind at 1.
    pose proof (quiet_get_os_info w2) as [Hm3 Ht3].
    destruct (get_os_info w2) as [[info|x] w3];
      cbn [snd] in *;
      [|intros E; injection E as <- <-; split; congruence].
    unfold bind at 1.
    pose proof (quiet_get_default_shell w3) as [Hm4 Ht4].
    destruct (get_default_shell w3) as [[sh|x] w4];
      cbn [snd] in *;
      [|intros E; injection E as <- <-; split; congruence].
    unfold bind, add_system_prompt, ret.
    intros E; injection E as <- <-. cbn [messages trace system_prompt].
    split; congruence. }
  destruct (__init__ w) as [r w5] eqn:E. cbn [snd]. exact (H r w5 eq_refl).
Qed.

(** C9: a session starts with an empty conversation; [__init__] puts the
    system message in, and from then on the conversation holds exactly
    one system message, the first of the log, after [chat] and after the
    whole of [run] (refinement, abort and execute included), and every
    conversation sent to the model has that shape. *)
Theorem one_system_message_first w0 self w1 inputs command :
  messages w0 = [] ->
  __init__ w0 = (Return self, w1) ->
  messages w1 = [msg system (system_prompt self)]
  /\ invocations (trace w1) = invocations (trace w0)
  /\ one_system_first (messages (snd (chat command w1))) = true
  /\ hd_error (messages (snd (chat command w1))) =
       Some (msg system (system_prompt self))
  /\ one_system_first (messages (snd (run inputs command w1))) = true
  /\ hd_error (messages (snd (run inputs command w1))) =
       Some (msg system (system_prompt self))
  /\ exists t,
       trace (snd (run inputs command w1)) = trace w1 ++ t
       /\ forallb one_system_first (invocations t) = true.
Proof.
  intros Hfresh Hinit.
  pose proof (init_world w0) as [Hm Ht]. rewrite Hinit in Hm, Ht.
  cbn [snd] in Ht. rewrite Hfresh in Hm. cbn [app] in Hm.
  destruct (chat_world command w1) as (reply & Hchat & Hreply).
  destruct (run_world inputs command w1) as (ms & t & Hrun & Hms & Hinv).
  rewrite Hchat, Hrun, Hm. cbn [messages trace app hd_error].
  split; [reflexivity|]. split; [exact Ht|].
  split; [exact Hreply|]. split; [reflexivity|].
  split; [exact Hms|]. split; [reflexivity|].
  eexists. split; [reflexivity|].
  cbn [invocations flat_map app forallb one_system_first].
  fold (invocations t). apply andb_true_iff. split; [reflexivity|].
  apply forallb_forall. intros context Hin.
  rewrite Forall_forall in Hinv.
  destruct (Hinv _ Hin) as (ms' & -> & Hms'). rewrite Hm. exact Hms'.
Qed.

(** *** What a whole run may do *)

(** When [chat] returns, the model has replied, the reply has been decoded
    and the command returned is the [command] entry of the decoded
    object. *)
Lemma chat_returns command w e c w1 :
  chat command w = (Return (e, c), w1) ->
  exists raw v,
    endpoint (messages w ++ [msg user command]) = Some raw
    /\ json_loads raw = Some v
    /\ getitem v "command" = Return c
    /\ w1 = answered (asked (told w command)) raw.
Proof.
  unfold chat, bind at 1. unfold add_user_prompt.
  unfold bind at 1. unfold generate_response, bind at 1.
  unfold invoke_model. cbn [messages trace].
  destruct (endpoint (messages w ++ [msg user command])) as [raw|] eqn:He;
    [|discriminate].
  unfold bind at 1. destruct (json_loads raw) as [v|] eqn:Hj; [|discriminate].
  unfold ret at 1. unfold bind at 1.
  destruct (require_keys ["explanation"; "command"]%string v _)
    as [[[]|x] w2] eqn:Hk; [|discriminate].
  assert (w2 = asked (told w command)).
  { revert Hk. unfold require_keys, bind, lift, ret, raise, asked, told.
    cbn [messages trace].
    destruct (contains "explanation" v) as [[]|]; cbn; try congruence.
    destruct (contains "command" v) as [[]|]; cbn; congruence. }
  subst w2. unfold ret at 1. unfold bind, add_assistant_prompt, lift.
  cbn [fst snd].
  destruct (getitem v "explanation") as [e0|]; [|discriminate].
  destruct (getitem v "command") as [c0|] eqn:Hc; [|discriminate].
  intros H. exists raw, v.
  assert (H' : c0 = c /\ w1 = answered (asked (told w command)) raw).
  { unfold answered. destruct e0; unfold ret in H;
      try (injection H as _ <- <-; split; reflexivity).
    destruct (join bullet items); [|discriminate].
    injection H as _ <- <-; split; reflexivity. }
  destruct H' as [<- ->]. repeat split; assumption || reflexivity.
Qed.

(** X1: whatever the model replies and whatever is typed, a run either
    calls the shell not at all, or ends with its one shell call, as that
    call does (returning when it returns, raising what it raises); the
    call comes straight after a confirmation prompt, one of the lines typed
    was the token Y (in either case) or empty, and the command handed over
    is the [command] entry of the decoded reply to the last model call. *)
Theorem run_executes_only_on_consent : forall inputs command w,
  exists t,
    trace (snd (run inputs command w)) = trace w ++ t
    /\ (shell_calls t = []
        \/ exists t1 context raw v shown line c confirmation,
             t = t1 ++ [Invoke context; Stdout shown; Stdout line;
                        Prompt confirm_prompt; Shell c]
             /\ shell_calls t1 = []
             /\ endpoint context = Some raw
             /\ json_loads raw = Some v
             /\ getitem v "command" = Return c
             /\ In confirmation inputs
             /\ (py_upper confirmation = "Y"%string
                 \/ confirmation = ""%string)
             /\ fst (run inputs command w) = shell_outcome c).
Proof.
  induction inputs as [|confirmation rest IH]; intros command w;
    rewrite run_eq;
    destruct (chat command w) as [[[e c]|x] w1] eqn:Hchat.
  - apply chat_returns in Hchat.
    destruct Hchat as (raw & v & He & Hj & Hc & ->).
    destruct (is_empty_str c); worlds; eexists; (split; [reflexivity|]);
      left; reflexivity.
  - destruct (chat_world command w) as (reply & Hw & _).
    rewrite Hchat in Hw. cbn [snd] in *. rewrite Hw. cbn [trace].
    eexists; split; [reflexivity|]. left; reflexivity.
  - apply chat_returns in Hchat.
    destruct Hchat as (raw & v & He & Hj & Hc & ->).
    destruct (is_empty_str c);
      [worlds; eexists; (split; [reflexivity|]); left; reflexivity|].
    destruct (str_in (py_upper confirmation) abort_tokens);
      [worlds; eexists; (split; [reflexivity|]); left; reflexivity|].
    destruct (negb (py_upper confirmation =? "Y")%string
              && negb (confirmation =? "")%string) eqn:Hgo.
    + destruct (IH confirmation
                  (offered (answered (asked (told w command)) raw) e c))
        as (t & Ht & Hs).
      rewrite Ht.
      exists ([Invoke (messages w ++ [msg user command]);
               Stdout (format e);
               Stdout (nl ++ tab ++ format c ++ nl)%string;
               Prompt confirm_prompt] ++ t).
      split; [worlds; reflexivity|].
      destruct Hs as [Hs|Hs];
        [left; rewrite shell_calls_app, Hs; reflexivity|right].
      destruct Hs as (t1 & context & raw2 & v2 & shown & line & c2 & conf2
                      & -> & Hs1 & He2 & Hj2 & Hc2 & Hin & Hy & Hr).
      exists ([Invoke (messages w ++ [msg user command]);
               Stdout (format e);
               Stdout (nl ++ tab ++ format c ++ nl)%string;
               Prompt confirm_prompt] ++ t1),
             context, raw2, v2, shown, line, c2, conf2.
      split; [now rewrite app_assoc|].
      split; [rewrite shell_calls_app, Hs1; reflexivity|].
      split; [exact He2|]. split; [exact Hj2|]. split; [exact Hc2|].
      split; [right; exact Hin|]. split; [exact Hy|exact Hr].
    + exists [Invoke (messages w ++ [msg user command]);
              Stdout (format e);
              Stdout (nl ++ tab ++ format c ++ nl)%string;
              Prompt confirm_prompt; Shell c].
      split; [worlds; reflexivity|]. right.
      exists [], (messages w ++ [msg user command]), raw, v,
             (format e), (nl ++ tab ++ format c ++ nl)%string, c,
             confirmation.
      split; [reflexivity|]. split; [reflexivity|].
      split; [exact He|]. split; [exact Hj|]. split; [exact Hc|].
      split; [left; reflexivity|]. split; [|reflexivity].
      apply andb_false_iff in Hgo.
      destruct Hgo as [Hgo|Hgo]; apply negb_false_iff in Hgo;
        apply String.eqb_eq in Hgo; [left|right]; exact Hgo.
  - destruct (chat_world command w) as (reply & Hw & _).
    rewrite Hchat in Hw. cbn [snd] in *. rewrite Hw. cbn [trace].
    eexists; split; [reflexivity|]. left; reflexivity.
Qed.

(** X2: a run on [n] typed lines calls the model at least once and at
    most [n + 1] times, asks the user at most once per model call, and calls
    the shell at most once. *)
Theorem run_call_bounds : forall inputs command w,
  exists t,
    trace (snd (run inputs command w)) = trace w ++ t
    /\ 1 <= length (invocations t) <= S (length inputs)
    /\ length (prompts t) <= length (invocations t)
    /\ length (shell_calls t) <= 1.
Proof.
  induction inputs as [|confirmation rest IH]; intros command w;
    rewrite run_eq;
    destruct (chat_world command w) as (reply & Hw & _);
    destruct (chat command w) as [[[e c]|x] w1]; cbn [snd] in Hw; subst w1;
    try (eexists; split; [reflexivity|]; cbn; lia).
  - destruct (is_empty_str c); worlds;
      (eexists; split; [reflexivity|]; cbn; lia).
  - destruct (is_empty_str c);
      [worlds; eexists; split; [reflexivity|]; cbn; lia|].
    destruct (str_in (py_upper confirmation) abort_tokens);
      [worlds; eexists; split; [reflexivity|]; cbn; lia|].
    destruct (negb (py_upper confirmation =? "Y")%string
              && negb (confirmation =? "")%string);
      [|worlds; eexists; split; [reflexivity|]; cbn; lia].
    destruct (IH confirmation
                (offered
                   (mkWorld (messages w ++ msg user command :: reply)
                      (trace w ++ [Invoke (messages w ++ [msg user command])]))
                   e c)) as (t & Ht & Hi & Hp & Hs).
    rewrite Ht.
    exists ([Invoke (messages w ++ [msg user command]);
             Stdout (format e);
             Stdout (nl ++ tab ++ format c ++ nl)%string;
             Prompt confirm_prompt] ++ t).
    split; [worlds; reflexivity|].
    rewrite invocations_app, prompts_app, shell_calls_app, !length_app.
    cbn. lia.
Qed.





(** *** Replies of other shapes *)

Lemma strings_not_all_str items :
  forallb is_str items = false -> strings items = None.
Proof.
  induction items as [|v rest IH]; simpl; [discriminate|].
  destruct v; simpl; try reflexivity.
  intros H. now rewrite (IH H).
Qed.

(** X6: an explanation that is a list holding something that is not a
    string makes [chat] fail with [TypeError] in the join, after the reply
    has been added to the conversation; the command is never shown, asked
    about or run, whatever it is. *)
Theorem run_explanation_not_joinable w command inputs raw entries items c :
  endpoint (messages w ++ [msg user command]) = Some raw ->
  json_loads raw = Some (VDict entries) ->
  lookup "explanation" entries = Some (VList items) ->
  forallb is_str items = false ->
  lookup "command" entries = Some c ->
  run inputs command w =
    (Raise TypeError,
     mkWorld (messages w ++ [msg user command; msg assistant raw])
       (trace w ++ [Invoke (messages w ++ [msg user command])])).
Proof.
  intros He Hj E1 Hitems E2.
  rewrite run_eq, (chat_object command w _ _ _ _ He Hj E1 E2).
  cbn [display]. unfold join. rewrite (strings_not_all_str _ Hitems).
  worlds. reflexivity.
Qed.

(** X7: the key test of the validator is the membership test of the
    decoded value, whatever its type: a decoded list that holds the two
    key names as strings, or a decoded string in which both occur, passes
    it and comes back from [generate_response]; [chat] then adds the reply
    to the conversation and fails with [TypeError] when it indexes the
    value by a key. *)
Theorem validator_accepts_non_object w command inputs raw v :
  endpoint (messages w ++ [msg user command]) = Some raw ->
  json_loads raw = Some v ->
  is_object v = false ->
  contains "explanation" v = Return true ->
  contains "command" v = Return true ->
  generate_response (told w command) =
    (Return (raw, v), asked (told w command))
  /\ run inputs command w =
       (Raise TypeError,
        mkWorld (messages w ++ [msg user command; msg assistant raw])
          (trace w ++ [Invoke (messages w ++ [msg user command])])).
Proof.
  intros He Hj Hv H1 H2.
  assert (Hg : generate_response (told w command) =
                 (Return (raw, v), asked (told w command))).
  { unfold generate_response, bind, invoke_model. cbn [messages told].
    rewrite He, Hj. unfold ret, require_keys, bind, lift.
    rewrite H1, H2. reflexivity. }
  split; [exact Hg|].
  rewrite run_eq. unfold chat, bind at 1. unfold add_user_prompt.
  fold (told w command). unfold bind at 1. rewrite Hg.
  unfold bind, add_assistant_prompt, lift. cbn [fst snd].
  destruct v; try discriminate; cbn [getitem]; worlds; reflexivity.
Qed.

(** X8: a reply that decodes to [None], a [bool] or a number fails the
    validator with [TypeError], not [KeyError]: the membership test cannot
    search such a value.  The reply is not added to the conversation and
    nothing is shown. *)
Theorem validator_scalar_reply w command inputs raw v :
  endpoint (messages w ++ [msg user command]) = Some raw ->
  json_loads raw = Some v ->
  is_scalar v = true ->
  generate_response (told w command) =
    (Raise TypeError, asked (told w command))
  /\ run inputs command w =
       (Raise TypeError,
        mkWorld (messages w ++ [msg user command])
          (trace w ++ [Invoke (messages w ++ [msg user command])])).
Proof.
  intros He Hj Hv.
  assert (Hg : generate_response (told w command) =
                 (Raise TypeError, asked (told w command))).
  { unfold generate_response, bind, invoke_model. cbn [messages told].
    rewrite He, Hj. unfold ret, require_keys, bind, lift.
    destruct v; try discriminate; reflexivity. }
  split; [exact Hg|].
  rewrite run_eq, (chat_raises command w _ Hg). worlds. reflexivity.
Qed.


(** *** More of the bootstrap *)

Lemma capture_found argv shell out w :
  run_capture host argv shell = Some out ->
  capture argv shell w =
    (Return out, mkWorld (messages w) (trace w ++ [Capture argv shell])).
Proof. intros H. unfold capture, bind, log, ret. now rewrite H. Qed.

Lemma capture_missing argv shell w :
  run_capture host argv shell = None ->
  capture argv shell w =
    (Raise (FileNotFoundError (hd ""%string argv)),
     mkWorld (messages w) (trace w ++ [Capture argv shell])).
Proof. intros H. unfold capture, bind, log, raise. now rewrite H. Qed.

Lemma get_os_info_linux info w :
  platform_system host = "Linux"%string ->
  run_capture host ["lsb_release"; "-a"]%string false = Some info ->
  get_os_info w =
    (Return ("Linux"%string, info),
     mkWorld (messages w)
       (trace w ++ [Capture ["lsb_release"; "-a"]%string false])).
Proof.
  intros Hp Hc. unfold get_os_info. cbv zeta. rewrite Hp.
  change ("Linux" =? "Windows")%string with false.
  change ("Linux" =? "Linux")%string with true. cbv iota.
  unfold bind at 1. rewrite (capture_found _ _ _ w Hc).
  reflexivity.
Qed.

Lemma get_default_shell_linux info w :
  platform_system host = "Linux"%string ->
  run_capture host ["lsb_release"; "-a"]%string false = Some info ->
  get_default_shell w =
    (Return (linux_shell host),
     mkWorld (messages w)
       (trace w ++ [Capture ["lsb_release"; "-a"]%string false])).
Proof.
  intros Hp Hc. unfold get_default_shell, bind at 1.
  rewrite (get_os_info_linux _ w Hp Hc). cbv zeta. cbn [fst].
  change ("Linux" =? "Linux")%string with true. cbv iota.
  unfold linux_shell.
  destruct (getenv host "SHELL") as [[|c rest]|]; reflexivity.
Qed.

Lemma init_found exe version w :
  which host "yt-dlp" = Some exe ->
  run_capture host [exe; "--version"%string] false = Some version ->
  __init__ w =
    (info <- get_os_info ;;
     default_shell <- get_default_shell ;;
     let prompt :=
       build_system_prompt (snd info) default_shell version exe in
     add_system_prompt prompt ;;;
     ret (mkYTDLPLLM exe version (fst info) (snd info) default_shell prompt))
      (mkWorld (messages w)
         (trace w ++ [Capture [exe; "--version"%string] false])).
Proof.
  intros Hw Hv. unfold __init__. unfold bind at 1.
  unfold except_FileNotFoundError, get_ytdlp_executable. rewrite Hw.
  unfold ret at 1. unfold bind at 1. unfold get_ytdlp_version.
  rewrite (capture_found _ _ _ w Hv). reflexivity.
Qed.

(** X10: on a system that is not Windows, Linux or macOS, constructing
    the session fails with [NotImplementedError], not with exit code 1,
    once yt-dlp has been found and asked for its version; no system message
    is added. *)
Theorem init_unsupported_platform w exe version :
  which host "yt-dlp" = Some exe ->
  run_capture host [exe; "--version"%string] false = Some version ->
  platform_system host <> "Windows"%string ->
  platform_system host <> "Linux"%string ->
  platform_system host <> "Darwin"%string ->
  __init__ w =
    (Raise (NotImplementedError
              ("OS " ++ platform_system host
                 ++ " not recognized. No specific command to run.")),
     mkWorld (messages w)
       (trace w ++ [Capture [exe; "--version"%string] false])).
Proof.
  intros Hw Hv H1 H2 H3. rewrite (init_found _ _ w Hw Hv).
  unfold bind at 1. unfold get_os_info. cbv zeta.
  apply String.eqb_neq in H1, H2, H3. rewrite H1, H2, H3. reflexivity.
Qed.

(** X11: the handler that turns a missing program into exit code 1 covers
    the search for yt-dlp only.  On Linux, when yt-dlp is found but
    [lsb_release] is not installed, constructing the session fails with
    [FileNotFoundError] itself; no system message is added. *)
Theorem init_missing_os_probe w exe version :
  which host "yt-dlp" = Some exe ->
  run_capture host [exe; "--version"%string] false = Some version ->
  platform_system host = "Linux"%string ->
  run_capture host ["lsb_release"; "-a"]%string false = None ->
  exists text,
    __init__ w =
      (Raise (FileNotFoundError text),
       mkWorld (messages w)
         (trace w ++ [Capture [exe; "--version"%string] false;
                      Capture ["lsb_release"; "-a"]%string false])).
Proof.
  intros Hw Hv Hp Hc. rewrite (init_found _ _ w Hw Hv).
  unfold bind at 1. unfold get_os_info. cbv zeta. rewrite Hp.
  change ("Linux" =? "Windows")%string with false.
  change ("Linux" =? "Linux")%string with true. cbv iota.
  unfold bind at 1.
  rewrite (capture_missing _ _ _ Hc). cbn [messages trace].
  rewrite <- app_assoc. eexists. reflexivity.
Qed.

(** X12: on Linux with yt-dlp and [lsb_release] installed, constructing
    the session runs three child processes, the version query and the
    system query twice, and adds one system message: the prompt filled
    with the output of the system query, the default shell, the version
    and the path of yt-dlp. *)
Theorem init_on_linux w exe version info :
  which host "yt-dlp" = Some exe ->
  run_capture host [exe; "--version"%string] false = Some version ->
  platform_system host = "Linux"%string ->
  run_capture host ["lsb_release"; "-a"]%string false = Some info ->
  __init__ w =
    (Return (mkYTDLPLLM exe version "Linux" info (linux_shell host)
               (build_system_prompt info (linux_shell host) version exe)),
     mkWorld
       (messages w
          ++ [msg system
                (build_system_prompt info (linux_shell host) version exe)])
       (trace w ++ [Capture [exe; "--version"%string] false;
                    Capture ["lsb_release"; "-a"]%string false;
                    Capture ["lsb_release"; "-a"]%string false])).
Proof.
  intros Hw Hv Hp Hc. rewrite (init_found _ _ w Hw Hv).
  unfold bind at 1. rewrite (get_os_info_linux _ _ Hp Hc).
  unfold bind at 1. rewrite (get_default_shell_linux _ _ Hp Hc).
  unfold bind, add_system_prompt, ret. cbn [messages trace fst snd].
  rewrite <- !app_assoc. reflexivity.
Qed.

(** X13: on Linux the default shell is the value of [SHELL] when it is
    set and not empty; when it is unset or empty it is the shell of the
    passwd entry, or nothing when there is no entry. *)
Theorem default_shell_on_linux w info :
  platform_system host = "Linux"%string ->
  run_capture host ["lsb_release"; "-a"]%string false = Some info ->
  (forall shell,
     getenv host "SHELL" = Some shell -> shell <> ""%string ->
     fst (get_default_shell w) = Return (Some shell))
  /\ (getenv host "SHELL" = None \/ getenv host "SHELL" = Some ""%string ->
      fst (get_default_shell w) = Return (pw_shell host)).
Proof.
  intros Hp Hc. rewrite (get_default_shell_linux _ w Hp Hc). cbn [fst].
  unfold linux_shell. split.
  - intros shell Hs Hne. rewrite Hs. destruct shell; [contradiction|].
    reflexivity.
  - intros [Hs|Hs]; rewrite Hs; reflexivity.
Qed.

(** X14: outside Linux neither [SHELL] nor the passwd entry is looked at:
    the default shell is [cmd.exe] on Windows and nothing on macOS,
    whatever the environment says. *)
Theorem default_shell_off_linux w os info :
  fst (get_os_info w) = Return (os, info) ->
  os <> "Linux"%string ->
  fst (get_default_shell w) =
    Return (if (os =? "Windows")%string then Some "cmd.exe"%string else None).
Proof.
  intros Hi Hne. unfold get_default_shell, bind.
  destruct (get_os_info w) as [[i|x] w1]; cbn [fst] in Hi; [|discriminate].
  injection Hi as ->. cbv zeta. cbn [fst].
  apply String.eqb_neq in Hne. rewrite Hne.
  destruct (os =? "Windows")%string; [reflexivity|].
  destruct (os =? "Darwin")%string; reflexivity.
Qed.

Lemma probing_ret {A} (a : A) : probing (ret a).
Proof. intros w. exists []. now rewrite app_nil_r. Qed.

Lemma probing_raise {A} (x : exn) : probing (@raise A x).
Proof. intros w. exists []. now rewrite app_nil_r. Qed.

Lemma probing_bind {A B} (m : M A) (k : A -> M B) :
  probing m -> (forall a, probing (k a)) -> probing (bind m k).
Proof.
  intros Hm Hk w. unfold bind. destruct (Hm w) as (t1 & Ht1 & Hb1).
  destruct (m w) as [[a|x] w1]; cbn [snd] in *; [|exists t1; now split].
  destruct (Hk a w1) as (t2 & Ht2 & Hb2). exists (t1 ++ t2).
  rewrite Ht2, Ht1, app_assoc, forallb_app, Hb1, Hb2. now split.
Qed.

Lemma probing_capture argv shell : probing (capture argv shell).
Proof.
  apply probing_bind.
  - intros w. exists [Capture argv shell]. now split.
  - intros _. destruct (run_capture host argv shell);
      [apply probing_ret|apply probing_raise].
Qed.

Lemma probing_get_os_info : probing get_os_info.
Proof.
  unfold get_os_info. cbv zeta.
  repeat match goal with
         | |- probing (if ?b then _ else _) => destruct b
         | |- probing (bind _ _) =>
             apply probing_bind; [apply probing_capture|intros]
         | |- probing (ret _) => apply probing_ret
         | |- probing (raise _) => apply probing_raise
         end.
Qed.

Lemma probing_get_default_shell : probing get_default_shell.
Proof.
  unfold get_default_shell.
  apply probing_bind; [apply probing_get_os_info|intros info]. cbv zeta.
  repeat match goal with
         | |- probing (if ?b then _ else _) => destruct b
         | |- probing (match ?x with _ => _ end) => destruct x
         | |- probing (ret _) => apply probing_ret
         end.
Qed.

Lemma probing_get_ytdlp_executable :
  probing (except_FileNotFoundError get_ytdlp_executable
             (fun e => print_stderr e ;;; raise (SystemExit 1))).
Proof.
  intros w. unfold except_FileNotFoundError, get_ytdlp_executable.
  destruct (which host "yt-dlp"); cbn.
  - exists []. now rewrite app_nil_r.
  - exists [Stderr missing_ytdlp_text]. now split.
Qed.

Lemma bootstrap_events_only t :
  forallb bootstrap_event t = true ->
  invocations t = [] /\ prompts t = [] /\ shell_calls t = []
  /\ forall text, ~ In (Stdout text) t.
Proof.
  induction t as [|e t IH]; cbn [forallb]; [now repeat split|].
  intros H. apply andb_true_iff in H. destruct H as [He Ht].
  destruct (IH Ht) as (Hi & Hp & Hs & Ho).
  destruct e as [shown|err|asked_for|context|argv shell|command];
    try discriminate; cbn; repeat split; try assumption;
    intros out [Heq|Hin]; try discriminate; exact (Ho out Hin).
Qed.

(** X15: on every host, constructing the session does nothing to the
    outside but run child processes for their output and, at most, write
    to the error stream: it does not call the model, does not ask the
    user, runs no command line and prints nothing on standard output. *)
Theorem init_only_probes : forall w,
  exists t,
    trace (snd (__init__ w)) = trace w ++ t
    /\ forallb bootstrap_event t = true
    /\ invocations t = [] /\ prompts t = [] /\ shell_calls t = []
    /\ forall text, ~ In (Stdout text) t.
Proof.
  assert (H : probing __init__).
  { unfold __init__.
    apply probing_bind; [apply probing_get_ytdlp_executable|intros exe].
    apply probing_bind; [apply probing_capture|intros version].
    apply probing_bind; [apply probing_get_os_info|intros info].
    apply probing_bind; [apply probing_get_default_shell|intros shell].
    cbv zeta. apply probing_bind; [|intros; apply probing_ret].
    intros w. exists []. unfold add_system_prompt. cbn [snd trace].
    now rewrite app_nil_r. }
  intros w. destruct (H w) as (t & Ht & Hb). exists t.
  split; [exact Ht|]. split; [exact Hb|]. now apply bootstrap_events_only.
Qed.

(** X16: a session's first call to the model carries two messages: the
    system prompt and, as the user message, the instruction words joined
    by single blanks. *)
Theorem main_first_call w self w1 instructions inputs :
  messages w = [] ->
  __init__ w = (Return self, w1) ->
  exists t,
    trace (snd (main instructions inputs w)) =
      trace w1
        ++ Invoke [msg system (system_prompt self);
                   msg user (String.concat " " instructions)] :: t.
Proof.
  intros Hfresh Hinit.
  pose proof (init_world w) as [Hm _]. rewrite Hinit, Hfresh in Hm.
  cbn [app] in Hm.
  unfold main, bind. rewrite Hinit.
  destruct (run_world inputs (String.concat " " instructions) w1)
    as (ms & t & Hrun & _ & _).
  exists t. rewrite Hrun, Hm. reflexivity.
Qed.

End Program.

(** ** The theorems at work on concrete sessions *)

Module Runs.

Import Demo.


(** The scenario of [test_ytdlpllm_run_user_abort], with the token typed
    in mixed case. *)
Lemma declined_run :
  shell_calls
    (trace (snd (run (always test_reply) loads no_str upper spawn ["qUiT"]
                   "Convert video format" fresh))) = [].
Proof.
  apply (proj2 (run_declined_never_executes (always test_reply) loads no_str upper (fun s _ => eq_refl) spawn
                  fresh "Convert video format" test_reply test_object
                  test_command "QUIT" "qUiT" []
                  eq_refl eq_refl eq_refl eq_refl
                  (fun H => eq_ind test_command
                              (fun s => match s with
                                        | EmptyString => False
                                        | String _ _ => True
                                        end) I _ H)
                  (or_intror (or_intror (or_intror (or_introl eq_refl))))
                  eq_refl)).
Defined.

(** A refusal: the loop prints the refusal and returns; the line the user
    would have typed is never asked for. *)
Lemma refused_run :
  run (always refusal_reply) loads no_str upper spawn ["Y"] "format my disk" fresh =
    (Return tt,
     mkWorld [msg user "format my disk"; msg assistant refusal_reply]
       [Invoke [msg user "format my disk"]; Stdout refusal_text]).
Proof.
  apply (proj2 (run_empty_command_refused (always refusal_reply) loads no_str upper spawn
                  fresh "format my disk" refusal_reply refusal_object ["Y"]
                  eq_refl eq_refl eq_refl)
           (VStr "I cannot do that.") eq_refl eq_refl).
Defined.

(** A reply with no [command] key ends the run with [KeyError] right
    after the model call. *)
Lemma incomplete_run :
  run (always incomplete_reply) loads no_str upper spawn ["Y"] "x" fresh =
    (Raise (KeyError missing_keys_text),
     mkWorld [msg user "x"] [Invoke [msg user "x"]]).
Proof.
  apply (proj1 (proj2 (validator_rejects_before_prompt
                         (always incomplete_reply) loads no_str upper spawn
                         fresh "x" ["Y"] incomplete_reply eq_refl))
           [("explanation", VStr "only this")]%string eq_refl
           (or_intror eq_refl)).
Defined.

(** A reply that is not JSON ends the run with [JSONDecodeError]. *)
Lemma malformed_run :
  run (always malformed_reply) loads no_str upper spawn ["Y"] "x" fresh =
    (Raise JSONDecodeError, mkWorld [msg user "x"] [Invoke [msg user "x"]]).
Proof. reflexivity. Qed.

(** The explanation of the blank reply, two strings, is joined. *)
Lemma rendered_chat :
  fst (chat (always blank_reply) loads "x" fresh) =
    Return (VStr ("a" ++ nl ++ "- b"), VStr " ").
Proof.
  apply (proj1 (chat_renders_explanation (always blank_reply) loads
                  fresh "x" blank_reply
                  [("explanation", VList [VStr "a"; VStr "b"]);
                   ("command", VStr " ")]%string
                  (VStr " ") eq_refl eq_refl eq_refl)
           ["a"; "b"]%string eq_refl).
Defined.

(** The refused reply is in the history all the same. *)
Lemma accepted_reply_kept :
  messages (snd (run (always refusal_reply) loads no_str upper spawn [] "format my disk"
                   fresh)) =
    [msg user "format my disk"; msg assistant refusal_reply].
Proof.
  apply (proj2 (chat_keeps_every_accepted_reply (always refusal_reply) loads
                  no_str upper spawn fresh "format my disk" [] refusal_reply
                  [("explanation", VStr "I cannot do that.");
                   ("command", VStr "")]%string
                  (VStr "I cannot do that.") (VStr "")
                  eq_refl eq_refl eq_refl eq_refl)).
  reflexivity.
Defined.

(** C4, as stated, fails on a refusal: the command of the reply is the
    empty string, the conversation was empty, and after the run the reply
    is in it as an assistant message. *)
Lemma refusal_is_appended :
  loads refusal_reply = Some refusal_object
  /\ command_of refusal_object = Some (VStr "")
  /\ messages fresh = []
  /\ fst (run (always refusal_reply) loads no_str upper spawn [] "format my disk" fresh) =
       Return tt
  /\ In (msg assistant refusal_reply)
       (messages (snd (run (always refusal_reply) loads no_str upper spawn []
                         "format my disk" fresh))).
Proof.
  repeat split; try reflexivity. right. left. reflexivity.
Qed.

(** The scenario of [test_missing_ytdlp_executable]. *)
Lemma missing_executable_run :
  main (always test_reply) loads no_str upper spawn bare ["Convert"; "video"] ["Y"] fresh =
    (Raise (SystemExit 1), mkWorld [] [Stderr missing_ytdlp_text]).
Proof.
  apply (proj1 (proj2 (missing_executable_exits_1 (always test_reply) loads
                         no_str upper spawn bare fresh ["Convert"; "video"]%string ["Y"]%string
                         eq_refl))).
Defined.



(** A whole session on the Linux host: bootstrap, a refinement, a
    confirmation; the conversation has one system message, and it is
    first. *)
Lemma session_run :
  one_system_first
    (messages (snd (main (always test_reply) loads no_str upper spawn linux
                      ["Convert"; "video"] ["as mp3"; "y"] fresh))) = true.
Proof.
  apply (proj1 (proj2 (proj2 (proj2 (proj2
           (one_system_message_first (always test_reply) loads no_str upper spawn linux
              fresh _ _ ["as mp3"; "y"] "Convert video"
              eq_refl eq_refl)))))).
Defined.

End Runs.

(** ** Further sessions *)

Module More.

Import Demo Cases.




(** An explanation with a number in it. *)
Lemma numbered_explanation_run :
  run (always numbered_reply) Cases.loads no_str upper spawn ["y"] "x" fresh =
    (Raise TypeError,
     mkWorld [msg user "x"; msg assistant numbered_reply]
       [Invoke [msg user "x"]]).
Proof.
  apply (run_explanation_not_joinable (always numbered_reply) Cases.loads
           no_str upper spawn fresh "x" ["y"] numbered_reply
           [("explanation", VList [VStr "a"; VNum "1"]);
            ("command", VStr "yt-dlp x")]
           [VStr "a"; VNum "1"] (VStr "yt-dlp x")
           eq_refl eq_refl eq_refl eq_refl eq_refl).
Defined.

(** An array of the two key names gets past the validator. *)
Lemma array_reply_run :
  generate_response (always array_reply) Cases.loads
    (mkWorld [msg user "x"] []) =
    (Return (array_reply, VList [VStr "explanation"; VStr "command"]),
     mkWorld [msg user "x"] [Invoke [msg user "x"]])
  /\ run (always array_reply) Cases.loads no_str upper spawn ["y"] "x" fresh =
       (Raise TypeError,
        mkWorld [msg user "x"; msg assistant array_reply]
          [Invoke [msg user "x"]]).
Proof.
  apply (validator_accepts_non_object (always array_reply) Cases.loads
           no_str upper spawn fresh "x" ["y"] array_reply
           (VList [VStr "explanation"; VStr "command"])
           eq_refl eq_refl eq_refl eq_refl eq_refl).
Defined.

(** A bare number. *)
Lemma number_reply_run :
  generate_response (always number_reply) Cases.loads
    (mkWorld [msg user "x"] []) =
    (Raise TypeError, mkWorld [msg user "x"] [Invoke [msg user "x"]])
  /\ run (always number_reply) Cases.loads no_str upper spawn ["y"] "x" fresh =
       (Raise TypeError,
        mkWorld [msg user "x"] [Invoke [msg user "x"]]).
Proof.
  apply (validator_scalar_reply (always number_reply) Cases.loads
           no_str upper spawn fresh "x" ["y"] number_reply (VNum "42")
           eq_refl eq_refl eq_refl).
Defined.


(** A command with a NUL in it is shown and, once confirmed, handed to
    the shell call, which refuses it with [ValueError]: the run ends with
    that exception, the call in its trace. *)
Lemma nul_command_run :
  run (always "r")
      (fun _ => Some (VDict [("explanation", VStr "e");
                             ("command",
                              VStr (String (ascii_of_nat 0) "yt-dlp"))]))
      no_str upper spawn ["Y"] "x" fresh =
    (Raise ValueError,
     mkWorld [msg user "x"; msg assistant "r"]
       [Invoke [msg user "x"];
        Stdout "e";
        Stdout (nl ++ tab ++ String (ascii_of_nat 0) "yt-dlp" ++ nl);
        Prompt confirm_prompt;
        Shell (VStr (String (ascii_of_nat 0) "yt-dlp"))]).
Proof. reflexivity. Qed.

(** An unknown system. *)
Lemma plan9_session :
  __init__ plan9 fresh =
    (Raise (NotImplementedError
              "OS Plan9 not recognized. No specific command to run."),
     mkWorld [] [Capture ["/usr/bin/yt-dlp"; "--version"] false]).
Proof.
  apply (init_unsupported_platform plan9 fresh "/usr/bin/yt-dlp"
           ("2024.04.09" ++ nl) eq_refl eq_refl); discriminate.
Defined.

(** Linux without [lsb_release]. *)
Lemma minimal_linux_session :
  exists text,
    __init__ minimal_linux fresh =
      (Raise (FileNotFoundError text),
       mkWorld [] [Capture ["/usr/bin/yt-dlp"; "--version"] false;
                   Capture ["lsb_release"; "-a"] false]).
Proof.
  apply (init_missing_os_probe minimal_linux fresh "/usr/bin/yt-dlp"
           ("2024.04.09" ++ nl) eq_refl eq_refl eq_refl eq_refl).
Defined.

(** Linux with everything in place. *)
Lemma linux_session :
  trace (snd (__init__ linux fresh)) =
    [Capture ["/usr/bin/yt-dlp"; "--version"] false;
     Capture ["lsb_release"; "-a"] false;
     Capture ["lsb_release"; "-a"] false]
  /\ _default_shell
       (match fst (__init__ linux fresh) with
        | Return self => self
        | Raise _ => mkYTDLPLLM "" "" "" "" None ""
        end) = Some "/bin/bash".
Proof.
  rewrite (init_on_linux linux fresh "/usr/bin/yt-dlp" ("2024.04.09" ++ nl)
             ("Description: Ubuntu 22.04" ++ nl)
             eq_refl eq_refl eq_refl eq_refl).
  split; reflexivity.
Defined.

(** An empty [SHELL] falls back on the passwd entry. *)
Lemma empty_shell_variable :
  fst (get_default_shell no_shell_linux fresh) = Return (Some "/bin/sh").
Proof.
  apply (proj2 (default_shell_on_linux no_shell_linux fresh
                  ("Description: Ubuntu 22.04" ++ nl) eq_refl eq_refl)).
  right. reflexivity.
Defined.

(** On macOS [SHELL] is set and the default shell is nothing all the
    same. *)
Lemma macos_shell :
  getenv macos "SHELL" = Some "/bin/zsh"
  /\ fst (get_default_shell macos fresh) = Return None.
Proof.
  split; [reflexivity|].
  apply (default_shell_off_linux macos fresh "Darwin"
           ("ProductName: macOS" ++ nl) eq_refl).
  discriminate.
Defined.

(** The first call of a session on the Linux host. *)
Lemma first_call_of_session :
  exists t,
    trace (snd (main (always test_reply) Demo.loads no_str upper spawn linux
                  ["Convert"; "video"] ["y"] fresh)) =
      (trace (snd (__init__ linux fresh))
         ++ Invoke [msg system
                      (build_system_prompt ("Description: Ubuntu 22.04" ++ nl)
                         (Some "/bin/bash") ("2024.04.09" ++ nl)
                         "/usr/bin/yt-dlp");
                    msg user "Convert video"] :: t)%list.
Proof.
  apply (main_first_call (always test_reply) Demo.loads no_str upper spawn linux
           fresh _ _ ["Convert"; "video"] ["y"] eq_refl eq_refl).
Defined.

End More.
